(** * WNTR: the EPANET 2.2 simulator driver, [wntr/sim/epanet22.py]

    A shallow embedding of [Epanet22Simulator.__init__] and
    [Epanet22Simulator.run_sim].  The method drives the EPANET toolkit
    through a fixed chain of calls on one project handle and then hands the
    binary output file to a reader.  Every call that leaves the method
    (the model writer, the toolkit, the logger, the reader) is an [Event];
    a run produces the list of events it issued, in program order, together
    with the updated simulator object and the value returned.

    The toolkit ([wntr.epanet22.toolkit]), the water network model and the
    reader ([wntr.epanet.io.BinFile]) are outside the two source files: the
    toolkit is an oracle that answers each call with an integer status code,
    and may take everything that happened before into account. *)

From Stdlib Require Import ZArith List String Ascii Bool Floats Lia.
Import ListNotations.

Set Warnings "-inexact-float".
Local Open Scope string_scope.
Local Open Scope Z_scope.

(** ** Python built-ins used by the source *)

Module Py.

(** [str.upper] on the ASCII range: the letters [a]..[z] (97..122) move
    down by 32, every other character stays.  Mode strings are modelled
    as ASCII strings. *)
Definition upper_char (c : ascii) : ascii :=
  let n := nat_of_ascii c in
  if (Nat.leb 97 n && Nat.leb n 122)%bool then ascii_of_nat (n - 32) else c.

Fixpoint upper (s : string) : string :=
  match s with
  | EmptyString => EmptyString
  | String c s' => String (upper_char c) (upper s')
  end.

(** A keyword argument left out at the call site takes its default. *)
Definition kwarg {A : Type} (default : A) (given : option A) : A :=
  match given with
  | Some a => a
  | None => default
  end.

End Py.

(** ** The outside world *)

(** The project handle returned by [toolkit.proj_create()]: opaque to the
    driver, which only passes it on. *)
Inductive Handle : Type :=
| ProjectHandle (id : N).

(** The calls of [wntr.epanet22.toolkit] that return a status code. *)
Inductive ToolkitCall : Type :=
| proj_open (ph : Handle) (inpfile rptfile outfile : string)
| hydr_usefile (ph : Handle) (hydfile : string)
| dmnd_setmodel (ph : Handle) (type : Z) (pmin pnom pexp : float)
| hydr_solve (ph : Handle)
| hydr_savefile (ph : Handle) (hydfile : string)
| qual_solve (ph : Handle)
| rprt_writeresults (ph : Handle)
| proj_close (ph : Handle).

(** Everything [run_sim] does to its environment, in program order.  A
    toolkit call is logged with the status code it returned. *)
Inductive Event : Type :=
| WriteInpfile (inpfile units : string)
| ProjCreate (ph : Handle)
| Toolkit (call : ToolkitCall) (code : Z)
| LoggerDebug (msg : string)
| ReaderRead (outfile : string).

(** The toolkit as an oracle: given the events so far, the handle that
    [proj_create] returns and the status code of each call. *)
Record ToolkitModule : Type := {
  tk_proj_create : list Event -> Handle;
  tk_status : list Event -> ToolkitCall -> Z
}.

(** What [run_sim] reads of the water network model:
    [wn.options.hydraulic.en2_units]. *)
Record WaterNetworkModel : Type := {
  en2_units : string
}.

(** The eight stages of the run protocol, and the stage each toolkit call
    stands for. *)
Inductive Stage : Type :=
| Open
| LoadHydraulics
| ConfigureDemand
| SolveHydraulics
| SaveHydraulics
| SolveQuality
| WriteReport
| Close.

Definition stage_of (c : ToolkitCall) : Stage :=
  match c with
  | proj_open _ _ _ _ => Open
  | hydr_usefile _ _ => LoadHydraulics
  | dmnd_setmodel _ _ _ _ _ => ConfigureDemand
  | hydr_solve _ => SolveHydraulics
  | hydr_savefile _ _ => SaveHydraulics
  | qual_solve _ => SolveQuality
  | rprt_writeresults _ => WriteReport
  | proj_close _ => Close
  end.

Definition Stage_eqb (a b : Stage) : bool :=
  match a, b with
  | Open, Open | LoadHydraulics, LoadHydraulics
  | ConfigureDemand, ConfigureDemand | SolveHydraulics, SolveHydraulics
  | SaveHydraulics, SaveHydraulics | SolveQuality, SolveQuality
  | WriteReport, WriteReport | Close, Close => true
  | _, _ => false
  end.

(** The toolkit calls of a trace, then their stages, their status codes and
    the two together. *)
Fixpoint toolkit_calls (tr : list Event) : list (ToolkitCall * Z) :=
  match tr with
  | [] => []
  | Toolkit c code :: tr' => (c, code) :: toolkit_calls tr'
  | _ :: tr' => toolkit_calls tr'
  end.

Definition stage_outcomes (tr : list Event) : list (Stage * Z) :=
  map (fun cc => (stage_of (fst cc), snd cc)) (toolkit_calls tr).

Definition stages (tr : list Event) : list Stage :=
  map fst (stage_outcomes tr).

Definition status_codes (tr : list Event) : list Z :=
  map snd (stage_outcomes tr).

Definition count_stage (s : Stage) (tr : list Event) : nat :=
  List.length (filter (Stage_eqb s) (stages tr)).

(** The [ReaderRead] events of a trace. *)
Fixpoint reads (tr : list Event) : list string :=
  match tr with
  | [] => []
  | ReaderRead outfile :: tr' => outfile :: reads tr'
  | _ :: tr' => reads tr'
  end.

(** Severity of a status code, by EPANET's ranges. *)
Definition is_warning (code : Z) : bool := (1 <=? code) && (code <=? 99).
Definition is_fatal (code : Z) : bool := 100 <=? code.

(** The highest status code of a history (0 when there is none). *)
Definition max_code (codes : list Z) : Z := fold_right Z.max 0 codes.

Section Simulator.

(** The result set a reader produces, the [result_types] dictionary, and
    the constructor [wntr.epanet.io.BinFile]: all three live outside the
    source files. *)
Context {Result ResultTypes : Type}.

(** A reader object: [read] maps the output file name to a result; what
    the file holds depends on what was done before. *)
Record Reader : Type := {
  read : list Event -> string -> Result
}.

Variable BinFile : option ResultTypes -> Reader.
Variable toolkit : ToolkitModule.

(** ** The simulator object

    [errcode], [errcodelist], [Warnflag] and [Errflag] are the class
    attributes of lines 42-49; the others are set by [__init__].  The
    list behind [errcodelist] belongs to the class and is shared by all
    instances; nothing in the source appends to it or rebinds it, so each
    object reads it as the empty list it starts as. *)
Record Epanet22Simulator : Type := {
  _wn : WaterNetworkModel;
  mode : string;
  pmin : float;
  pnom : float;
  reader : Reader;
  prep_time_before_main_loop : float;
  errcode : Z;
  errcodelist : list Z;
  Warnflag : bool;
  Errflag : bool
}.

Definition set_errcode (code : Z) (self : Epanet22Simulator) : Epanet22Simulator :=
  {| _wn := _wn self; mode := mode self; pmin := pmin self; pnom := pnom self;
     reader := reader self;
     prep_time_before_main_loop := prep_time_before_main_loop self;
     errcode := code;
     errcodelist := errcodelist self;
     Warnflag := Warnflag self;
     Errflag := Errflag self |}.

(** [Epanet22Simulator.__init__(self, wn, mode='PDD', pmin=17.75,
    pnom=21.96, reader=None, result_types=None)].  An argument the caller
    leaves out is [None] here.  The base class constructor keeps [wn] in
    [_wn]. *)
Definition __init__ (wn : WaterNetworkModel) (mode : option string)
    (pmin pnom : option float) (reader : option Reader)
    (result_types : option ResultTypes) : Epanet22Simulator :=
  {| _wn := wn;
     mode := Py.kwarg "PDD" mode;
     pmin := Py.kwarg 17.75%float pmin;
     pnom := Py.kwarg 21.96%float pnom;
     reader := match reader with
               | Some r => r
               | None => BinFile result_types
               end;
     prep_time_before_main_loop := 0.0%float;
     errcode := 0;
     errcodelist := [];
     Warnflag := false;
     Errflag := false |}.

(** ** The monad of a method body

    A computation sees the simulator object and the events that happened
    before it, and yields a value, the updated object and the events it
    issued itself. *)
Definition M (A : Type) : Type :=
  Epanet22Simulator -> list Event -> A * Epanet22Simulator * list Event.

Definition ret {A : Type} (a : A) : M A :=
  fun self _ => (a, self, []).

Definition bind {A B : Type} (m : M A) (k : A -> M B) : M B :=
  fun self past =>
    let '(a, self1, out1) := m self past in
    let '(b, self2, out2) := k a self1 (past ++ out1)%list in
    (b, self2, (out1 ++ out2)%list).

Notation "x <- m ;; k" := (bind m (fun x => k))
  (at level 61, m at next level, right associativity).
Notation "m ;; k" := (bind m (fun _ => k))
  (at level 61, right associativity).

(** [self.<field>] *)
Definition attr {A : Type} (field : Epanet22Simulator -> A) : M A :=
  fun self _ => (field self, self, []).

(** [self.errcode = code] *)
Definition assign_errcode (code : Z) : M unit :=
  fun self _ => (tt, set_errcode code self, []).

Definition emit (e : Event) : M unit :=
  fun self _ => (tt, self, [e]).

(** [self._wn.write_inpfile(inpfile, units=...)] *)
Definition write_inpfile (inpfile units : string) : M unit :=
  emit (WriteInpfile inpfile units).

(** [toolkit.proj_create()] *)
Definition toolkit_proj_create : M Handle :=
  fun self past =>
    let ph := tk_proj_create toolkit past in
    (ph, self, [ProjCreate ph]).

(** Any other toolkit call: the oracle's status code is the value. *)
Definition toolkit_call (c : ToolkitCall) : M Z :=
  fun self past =>
    let code := tk_status toolkit past c in
    (code, self, [Toolkit c code]).

(** [logger.debug(msg)] *)
Definition logger_debug (msg : string) : M unit :=
  emit (LoggerDebug msg).

(** [self.reader.read(outfile)] *)
Definition reader_read (outfile : string) : M Result :=
  fun self past => (read (reader self) past outfile, self, [ReaderRead outfile]).

(** ** [Epanet22Simulator.run_sim], lines 61-108 *)
Definition run_sim (file_prefix : string) (save_hyd use_hyd : bool)
    (hydfile : option string) : M Result :=
  let inpfile := file_prefix ++ ".inp" in
  wn <- attr _wn ;;
  write_inpfile inpfile (en2_units wn) ;;
  ph <- toolkit_proj_create ;;
  let rptfile := file_prefix ++ ".rpt" in
  let outfile := file_prefix ++ ".bin" in
  hydfile <- match hydfile with
             | None =>
                 let hydfile := file_prefix ++ ".hyd" in
                 code <- toolkit_call (proj_open ph inpfile rptfile outfile) ;;
                 assign_errcode code ;;
                 ret hydfile
             | Some hydfile => ret hydfile
             end ;;
  (if use_hyd then
     code <- toolkit_call (hydr_usefile ph hydfile) ;;
     assign_errcode code ;;
     logger_debug "Loaded hydraulics"
   else
     mode <- attr mode ;;
     (if (Py.upper mode =? "PDD")%string then
        pmin <- attr pmin ;;
        pnom <- attr pnom ;;
        toolkit_call (dmnd_setmodel ph 1 pmin pnom 0.5%float) ;;
        ret tt
      else ret tt) ;;
     code <- toolkit_call (hydr_solve ph) ;;
     assign_errcode code ;;
     logger_debug "Solved hydraulics") ;;
  (if save_hyd then
     code <- toolkit_call (hydr_savefile ph hydfile) ;;
     assign_errcode code ;;
     logger_debug "Saved hydraulics"
   else ret tt) ;;
  code <- toolkit_call (qual_solve ph) ;;
  assign_errcode code ;;
  logger_debug "Solved quality" ;;
  code <- toolkit_call (rprt_writeresults ph) ;;
  assign_errcode code ;;
  logger_debug "Ran quality" ;;
  code <- toolkit_call (proj_close ph) ;;
  assign_errcode code ;;
  logger_debug "Completed run" ;;
  reader_read outfile.

(** [run_sim(self, file_prefix='temp', save_hyd=False, use_hyd=False,
    hydfile=None)] with keyword arguments left out. *)
Definition run_sim_kwargs (file_prefix : option string)
    (save_hyd use_hyd : option bool) (hydfile : option string) : M Result :=
  run_sim (Py.kwarg "temp" file_prefix) (Py.kwarg false save_hyd)
          (Py.kwarg false use_hyd) hydfile.

(** The three components of a finished run. *)
Definition returned {A : Type} (r : A * Epanet22Simulator * list Event) : A :=
  fst (fst r).
Definition object {A : Type} (r : A * Epanet22Simulator * list Event)
  : Epanet22Simulator := snd (fst r).
Definition issued {A : Type} (r : A * Epanet22Simulator * list Event)
  : list Event := snd r.

(** The handle every toolkit call of the run is made on: the one
    [proj_create] returned after the input file was written. *)
Definition run_handle (file_prefix : string) (self : Epanet22Simulator)
    (past : list Event) : Handle :=
  tk_proj_create toolkit
    (past ++ [WriteInpfile (file_prefix ++ ".inp") (en2_units (_wn self))]).

(** [post m self past Q]: the run of [m] from [self] after [past] ends
    with a value, an object and issued events that satisfy [Q]. *)
Definition post {A : Type} (m : M A) (self : Epanet22Simulator)
    (past : list Event)
    (Q : A -> Epanet22Simulator -> list Event -> Prop) : Prop :=
  Q (returned (m self past)) (object (m self past)) (issued (m self past)).

End Simulator.


(** ** Vocabulary of the properties *)

(** The toolkit calls of a trace that belong to stage [s]. *)
Definition calls_of_stage (s : Stage) (tr : list Event) : list ToolkitCall :=
  filter (fun c => Stage_eqb s (stage_of c)) (map fst (toolkit_calls tr)).

(** The stage chain of one run, by its four switches: whether the project
    is opened, whether hydraulics are loaded, whether the demand model is
    configured, whether hydraulics are saved. *)
Definition stage_chain (opened use_hyd pdd save_hyd : bool) : list Stage :=
  (if opened then [Open] else []) ++
  (if use_hyd then [LoadHydraulics]
   else (if pdd then [ConfigureDemand] else []) ++ [SolveHydraulics]) ++
  (if save_hyd then [SaveHydraulics] else []) ++
  [SolveQuality; WriteReport; Close].

(** The chain the fresh-solve run is specified to issue: [Open] always
    comes first. *)
Definition fresh_solve_chain (pdd save_hyd : bool) : list Stage :=
  stage_chain true false pdd save_hyd.

(** [hydfile is None] *)
Definition is_None {A : Type} (o : option A) : bool :=
  match o with
  | None => true
  | Some _ => false
  end.

(** The spellings of the mode that upper-case to [PDD]. *)
Definition pdd_spellings : list string :=
  ["PDD"; "PDd"; "PdD"; "Pdd"; "pDD"; "pDd"; "pdD"; "pdd"].

(** ** Concrete collaborators for the examples *)

Definition example_wn : WaterNetworkModel := {| en2_units := "GPM" |}.

(** A reader whose result is the name of the file it was given. *)
Definition echo_reader : @Reader string := {| read := fun _ outfile => outfile |}.

Definition example_BinFile : option unit -> @Reader string := fun _ => echo_reader.

(** A toolkit whose every call succeeds. *)
Definition toolkit_ok : ToolkitModule :=
  {| tk_proj_create := fun _ => ProjectHandle 1;
     tk_status := fun _ _ => 0 |}.

(** A toolkit that rejects the input file: [proj_open] answers 200. *)
Definition toolkit_bad_input : ToolkitModule :=
  {| tk_proj_create := fun _ => ProjectHandle 1;
     tk_status := fun _ c => match c with
                             | proj_open _ _ _ _ => 200
                             | _ => 0
                             end |}.

(** A toolkit whose hydraulic solver warns: [hydr_solve] answers 6. *)
Definition toolkit_warns : ToolkitModule :=
  {| tk_proj_create := fun _ => ProjectHandle 1;
     tk_status := fun _ c => match c with
                             | hydr_solve _ => 6
                             | _ => 0
                             end |}.

(** The simulator built with every optional argument left out. *)
Definition default_simulator : @Epanet22Simulator string :=
  __init__ example_BinFile example_wn None None None None None.

(** ** Further views of a trace *)

(** The project handle a toolkit call is made on. *)
Definition handle_of (c : ToolkitCall) : Handle :=
  match c with
  | proj_open ph _ _ _ => ph
  | hydr_usefile ph _ => ph
  | dmnd_setmodel ph _ _ _ _ => ph
  | hydr_solve ph => ph
  | hydr_savefile ph _ => ph
  | qual_solve ph => ph
  | rprt_writeresults ph => ph
  | proj_close ph => ph
  end.

(** The file names a call or an event carries. *)
Definition files_of_call (c : ToolkitCall) : list string :=
  match c with
  | proj_open _ inpfile rptfile outfile => [inpfile; rptfile; outfile]
  | hydr_usefile _ hydfile => [hydfile]
  | hydr_savefile _ hydfile => [hydfile]
  | _ => []
  end.

Definition files_of_event (e : Event) : list string :=
  match e with
  | WriteInpfile inpfile _ => [inpfile]
  | Toolkit c _ => files_of_call c
  | ReaderRead outfile => [outfile]
  | _ => []
  end.

Definition files (tr : list Event) : list string :=
  flat_map files_of_event tr.

(** The input files written, the projects created and the debug lines
    logged, each in order. *)
Fixpoint writes (tr : list Event) : list (string * string) :=
  match tr with
  | [] => []
  | WriteInpfile inpfile units :: tr' => (inpfile, units) :: writes tr'
  | _ :: tr' => writes tr'
  end.

Fixpoint creates (tr : list Event) : list Handle :=
  match tr with
  | [] => []
  | ProjCreate ph :: tr' => ph :: creates tr'
  | _ :: tr' => creates tr'
  end.

Fixpoint debug_lines (tr : list Event) : list string :=
  match tr with
  | [] => []
  | LoggerDebug msg :: tr' => msg :: debug_lines tr'
  | _ :: tr' => debug_lines tr'
  end.

(** The calls that read or write a hydraulics file. *)
Definition touches_hydfile (c : ToolkitCall) : bool :=
  match c with
  | hydr_usefile _ _ | hydr_savefile _ _ => true
  | _ => false
  end.

Definition hydfile_calls (tr : list Event) : list ToolkitCall :=
  filter touches_hydfile (map fst (toolkit_calls tr)).

(** The toolkit calls of one run with their arguments, by the project
    handle, the arguments of [run_sim] and the three attributes it reads. *)
Definition call_chain (ph : Handle) (file_prefix : string)
    (save_hyd use_hyd : bool) (hydfile : option string)
    (mode : string) (pmin pnom : float) : list ToolkitCall :=
  let path := Py.kwarg (file_prefix ++ ".hyd") hydfile in
  ((if is_None hydfile
    then [proj_open ph (file_prefix ++ ".inp") (file_prefix ++ ".rpt")
            (file_prefix ++ ".bin")]
    else []) ++
   (if use_hyd then [hydr_usefile ph path]
    else (if (Py.upper mode =? "PDD")%string
          then [dmnd_setmodel ph 1 pmin pnom 0.5%float] else []) ++
         [hydr_solve ph]) ++
   (if save_hyd then [hydr_savefile ph path] else []) ++
   [qual_solve ph; rprt_writeresults ph; proj_close ph])%list.

(** Two simulator objects that agree on everything [run_sim] reads. *)
Definition agree {Result : Type} (s1 s2 : @Epanet22Simulator Result) : Prop :=
  _wn s1 = _wn s2 /\ mode s1 = mode s2 /\ pmin s1 = pmin s2 /\
  pnom s1 = pnom s2 /\ reader s1 = reader s2.

(** A computation that cannot tell two such objects apart. *)
Definition respects {Result A : Type} (m : @M Result A) : Prop :=
  forall (s1 s2 : Epanet22Simulator) (past : list Event),
    agree s1 s2 ->
    returned (m s1 past) = returned (m s2 past) /\
    issued (m s1 past) = issued (m s2 past) /\
    agree (object (m s1 past)) (object (m s2 past)).

(** A toolkit that fails every call with 203. *)
Definition toolkit_failing : ToolkitModule :=
  {| tk_proj_create := fun _ => ProjectHandle 1;
     tk_status := fun _ _ => 203 |}.

(** A simulator that has been through a failed run. *)
Definition used_simulator : @Epanet22Simulator string :=
  set_errcode 203 default_simulator.

Section Properties.

Context {Result : Type}.
Variable toolkit : ToolkitModule.

(** *** Rules for [post], one per primitive of the monad *)

Lemma post_ret {A : Type} (a : A) (self : @Epanet22Simulator Result) past Q :
  Q a self [] -> post (ret a) self past Q.
Proof. exact (fun H => H). Qed.

Lemma post_bind {A B : Type} (m : M A) (k : A -> M B)
    (self : @Epanet22Simulator Result) past Q :
  post m self past
    (fun a self1 out1 =>
       post (k a) self1 (past ++ out1)
         (fun b self2 out2 => Q b self2 (out1 ++ out2)%list)) ->
  post (bind m k) self past Q.
Proof.
  unfold post, bind, returned, object, issued.
  destruct (m self past) as [[a self1] out1]; cbn.
  destruct (k a self1 (past ++ out1)%list) as [[b self2] out2]; cbn.
  exact (fun H => H).
Qed.

Lemma post_attr {A : Type} (field : @Epanet22Simulator Result -> A) self past Q :
  Q (field self) self [] -> post (attr field) self past Q.
Proof. exact (fun H => H). Qed.

Lemma post_assign_errcode (code : Z) (self : @Epanet22Simulator Result) past Q :
  Q tt (set_errcode code self) [] -> post (assign_errcode code) self past Q.
Proof. exact (fun H => H). Qed.

Lemma post_emit (e : Event) (self : @Epanet22Simulator Result) past Q :
  Q tt self [e] -> post (emit e) self past Q.
Proof. exact (fun H => H). Qed.

Lemma post_proj_create (self : @Epanet22Simulator Result) past Q :
  Q (tk_proj_create toolkit past) self [ProjCreate (tk_proj_create toolkit past)] ->
  post (toolkit_proj_create toolkit) self past Q.
Proof. exact (fun H => H). Qed.

(** Whatever status code the toolkit answers with. *)
Lemma post_toolkit_call (c : ToolkitCall) (self : @Epanet22Simulator Result) past Q :
  (forall code : Z, Q code self [Toolkit c code]) ->
  post (toolkit_call toolkit c) self past Q.
Proof. intros H. apply H. Qed.

Lemma post_reader_read (outfile : string) (self : @Epanet22Simulator Result) past Q :
  Q (read (reader self) past outfile) self [ReaderRead outfile] ->
  post (reader_read outfile) self past Q.
Proof. exact (fun H => H). Qed.

Lemma post_run {A : Type} (m : M A) (self : @Epanet22Simulator Result) past Q :
  post m self past Q ->
  Q (returned (m self past)) (object (m self past)) (issued (m self past)).
Proof. exact (fun H => H). Qed.

Ltac tidy :=
  cbv beta zeta;
  cbn [set_errcode _wn mode pmin pnom reader errcode errcodelist Warnflag Errflag].

Ltac step :=
  lazymatch goal with
  | |- post (bind _ _) _ _ _ => apply post_bind
  | |- post (ret _) _ _ _ => apply post_ret
  | |- post (attr _) _ _ _ => apply post_attr
  | |- post (assign_errcode _) _ _ _ => apply post_assign_errcode
  | |- post (write_inpfile _ _) _ _ _ => apply post_emit
  | |- post (logger_debug _) _ _ _ => apply post_emit
  | |- post (toolkit_proj_create _) _ _ _ => apply post_proj_create
  | |- post (toolkit_call _ _) _ _ _ => apply post_toolkit_call; intros ?code
  | |- post (reader_read _) _ _ _ => apply post_reader_read
  | |- post (if ?b then _ else _) _ _ _ => destruct b eqn:?
  end; tidy.

(** Runs [run_sim] symbolically in each of its configurations and leaves
    the postcondition on the events of that configuration. *)
Ltac run_cases hydfile use_hyd save_hyd :=
  unfold run_sim; destruct hydfile, use_hyd, save_hyd; tidy;
  repeat step; cbn [app]; rewrite ?app_nil_r.

Lemma run_sim_stages (file_prefix : string) (save_hyd use_hyd : bool)
    (hydfile : option string) (self : @Epanet22Simulator Result)
    (past : list Event) :
  stages (issued (run_sim toolkit file_prefix save_hyd use_hyd hydfile self past)) =
  stage_chain (is_None hydfile) use_hyd
    (Py.upper (mode self) =? "PDD")%string save_hyd.
Proof.
  apply (post_run (run_sim toolkit file_prefix save_hyd use_hyd hydfile) self past
           (fun _ _ out => stages out = stage_chain _ _ _ _)).
  run_cases hydfile use_hyd save_hyd; reflexivity.
Qed.

(** [run_sim] assigns [errcode] and nothing else. *)
Lemma run_sim_attrs_kept (file_prefix : string) (save_hyd use_hyd : bool)
    (hydfile : option string) (self : @Epanet22Simulator Result)
    (past : list Event) :
  let self' := object (run_sim toolkit file_prefix save_hyd use_hyd hydfile self past) in
  errcodelist self' = errcodelist self /\
  Warnflag self' = Warnflag self /\
  Errflag self' = Errflag self /\
  mode self' = mode self /\ pmin self' = pmin self /\ pnom self' = pnom self.
Proof.
  apply (post_run (run_sim toolkit file_prefix save_hyd use_hyd hydfile) self past
           (fun _ self' _ =>
              errcodelist self' = errcodelist self /\
              Warnflag self' = Warnflag self /\
              Errflag self' = Errflag self /\
              mode self' = mode self /\ pmin self' = pmin self /\
              pnom self' = pnom self)).
  run_cases hydfile use_hyd save_hyd; repeat split.
Qed.

(** The demand-model calls of a run. *)
Lemma run_sim_configure_calls (file_prefix : string) (save_hyd use_hyd : bool)
    (hydfile : option string) (self : @Epanet22Simulator Result)
    (past : list Event) :
  calls_of_stage ConfigureDemand
    (issued (run_sim toolkit file_prefix save_hyd use_hyd hydfile self past)) =
  if (negb use_hyd && (Py.upper (mode self) =? "PDD")%string)%bool
  then [dmnd_setmodel (run_handle toolkit file_prefix self past) 1
          (pmin self) (pnom self) 0.5%float]
  else [].
Proof.
  apply (post_run (run_sim toolkit file_prefix save_hyd use_hyd hydfile) self past
           (fun _ _ out => calls_of_stage ConfigureDemand out = _)).
  unfold run_handle.
  run_cases hydfile use_hyd save_hyd; reflexivity.
Qed.

(** The end of every run: [proj_close], the debug line, the read. *)
Lemma run_sim_ending (file_prefix : string) (save_hyd use_hyd : bool)
    (hydfile : option string) (self : @Epanet22Simulator Result)
    (past : list Event) :
  let run := run_sim toolkit file_prefix save_hyd use_hyd hydfile self past in
  exists (body : list Event) (code : Z),
    issued run =
      (body ++ [Toolkit (proj_close (run_handle toolkit file_prefix self past)) code;
                LoggerDebug "Completed run";
                ReaderRead (file_prefix ++ ".bin")])%list /\
    count_stage Close body = 0%nat /\
    reads body = [] /\
    errcode (object run) = code /\
    returned run =
      read (reader self)
        (past ++ body ++
           [Toolkit (proj_close (run_handle toolkit file_prefix self past)) code;
            LoggerDebug "Completed run"])%list
        (file_prefix ++ ".bin").
Proof.
  apply (post_run (run_sim toolkit file_prefix save_hyd use_hyd hydfile) self past
           (fun r self' out =>
              exists (body : list Event) (code : Z),
                out = (body ++ [Toolkit (proj_close _) code;
                                LoggerDebug "Completed run";
                                ReaderRead (file_prefix ++ ".bin")])%list /\
                count_stage Close body = 0%nat /\
                reads body = [] /\
                errcode self' = code /\
                r = read (reader self)
                      (past ++ body ++ [Toolkit (proj_close _) code;
                                        LoggerDebug "Completed run"])%list
                      (file_prefix ++ ".bin"))).
  unfold run_handle.
  run_cases hydfile use_hyd save_hyd;
    rewrite <- ?app_assoc; cbn [app];
    match goal with
    | |- exists body code, ?out = _ /\ _ =>
        exists (removelast (removelast (removelast out)))
    end;
    cbn [removelast]; eexists; repeat split; reflexivity.
Qed.

(** *** Traces split at any point *)

Lemma toolkit_calls_app (tr1 tr2 : list Event) :
  toolkit_calls (tr1 ++ tr2) = (toolkit_calls tr1 ++ toolkit_calls tr2)%list.
Proof.
  induction tr1 as [|e tr1 IH]; [reflexivity|].
  destruct e; cbn; rewrite IH; reflexivity.
Qed.

Lemma stage_outcomes_app (tr1 tr2 : list Event) :
  stage_outcomes (tr1 ++ tr2) = (stage_outcomes tr1 ++ stage_outcomes tr2)%list.
Proof. unfold stage_outcomes. rewrite toolkit_calls_app. apply map_app. Qed.

Lemma count_stage_app (s : Stage) (tr1 tr2 : list Event) :
  count_stage s (tr1 ++ tr2) = (count_stage s tr1 + count_stage s tr2)%nat.
Proof.
  unfold count_stage, stages.
  rewrite stage_outcomes_app, map_app, filter_app. apply length_app.
Qed.

Lemma reads_app (tr1 tr2 : list Event) :
  reads (tr1 ++ tr2) = (reads tr1 ++ reads tr2)%list.
Proof.
  induction tr1 as [|e tr1 IH]; [reflexivity|].
  destruct e; cbn; rewrite IH; reflexivity.
Qed.

(** *** [str.upper] against ["PDD"] *)

Lemma upper_char_P (c : ascii) :
  Py.upper_char c = "P"%char -> c = "P"%char \/ c = "p"%char.
Proof.
  destruct c as [[] [] [] [] [] [] [] []]; vm_compute; intros H;
    first [discriminate H | left; reflexivity | right; reflexivity].
Qed.

Lemma upper_char_D (c : ascii) :
  Py.upper_char c = "D"%char -> c = "D"%char \/ c = "d"%char.
Proof.
  destruct c as [[] [] [] [] [] [] [] []]; vm_compute; intros H;
    first [discriminate H | left; reflexivity | right; reflexivity].
Qed.

Lemma upper_PDD_spellings (m : string) :
  Py.upper m = "PDD" <-> In m pdd_spellings.
Proof.
  split.
  - destruct m as [|a [|b [|c [|d m]]]]; cbn [Py.upper]; try discriminate.
    intros H. injection H as Ha Hb Hc.
    destruct (upper_char_P a Ha), (upper_char_D b Hb), (upper_char_D c Hc);
      subst; cbn; tauto.
  - cbn. intros H.
    repeat (destruct H as [H|H]; [subst m; reflexivity|]).
    contradiction.
Qed.

(** The hydraulics file the run works with: the one given, else the
    prefix with [.hyd]. *)
Lemma run_sim_hydfile_calls (file_prefix : string) (save_hyd use_hyd : bool)
    (hydfile : option string) (self : @Epanet22Simulator Result)
    (past : list Event) :
  let out := issued (run_sim toolkit file_prefix save_hyd use_hyd hydfile self past) in
  let ph := run_handle toolkit file_prefix self past in
  let path := Py.kwarg (file_prefix ++ ".hyd") hydfile in
  calls_of_stage LoadHydraulics out =
    (if use_hyd then [hydr_usefile ph path] else []) /\
  calls_of_stage SaveHydraulics out =
    (if save_hyd then [hydr_savefile ph path] else []).
Proof.
  apply (post_run (run_sim toolkit file_prefix save_hyd use_hyd hydfile) self past
           (fun _ _ out =>
              calls_of_stage LoadHydraulics out = _ /\
              calls_of_stage SaveHydraulics out = _)).
  unfold run_handle.
  run_cases hydfile use_hyd save_hyd; split; reflexivity.
Qed.

(** With the hydraulics file left to the prefix, a fresh solve goes
    through the whole chain, [Open] first. *)
Lemma run_sim_derived_hydfile_chain (file_prefix : string) (save_hyd : bool)
    (self : @Epanet22Simulator Result) (past : list Event) :
  stages (issued (run_sim toolkit file_prefix save_hyd false None self past)) =
  fresh_solve_chain (Py.upper (mode self) =? "PDD")%string save_hyd.
Proof. apply run_sim_stages. Qed.

(** With a hydraulics file given, [proj_open] is not among the calls. *)
Lemma run_sim_given_hydfile_no_open (file_prefix : string)
    (save_hyd use_hyd : bool) (given : string)
    (self : @Epanet22Simulator Result) (past : list Event) :
  calls_of_stage Open
    (issued (run_sim toolkit file_prefix save_hyd use_hyd (Some given) self past)) = [].
Proof.
  apply (post_run (run_sim toolkit file_prefix save_hyd use_hyd (Some given)) self past
           (fun _ _ out => calls_of_stage Open out = [])).
  unfold run_sim; destruct use_hyd, save_hyd; tidy; repeat step; reflexivity.
Qed.

(** ** The claims *)

(** C3 (as amended): after every run, [errcode] holds the status code of
    the last stage, [Close]; the codes of the earlier stages are
    overwritten one by one and no maximum is kept. *)
Theorem run_sim_errcode_is_close_code (file_prefix : string)
    (save_hyd use_hyd : bool) (hydfile : option string)
    (self : @Epanet22Simulator Result) (past : list Event) :
  let run := run_sim toolkit file_prefix save_hyd use_hyd hydfile self past in
  exists earlier : list (Stage * Z),
    stage_outcomes (issued run) =
      (earlier ++ [(Close, errcode (object run))])%list /\
    errcode (object run) = last (status_codes (issued run)) 0.
Proof.
  intros run.
  destruct (run_sim_ending file_prefix save_hyd use_hyd hydfile self past)
    as (body & code & Hout & _ & _ & Hcode & _).
  fold run in Hout, Hcode.
  exists (stage_outcomes body).
  unfold status_codes.
  rewrite Hout, stage_outcomes_app, Hcode.
  split; [reflexivity|].
  rewrite map_app.
  exact (eq_sym (last_last (map snd (stage_outcomes body)) code 0)).
Qed.

(** C6: when [use_hyd] is set, neither the demand-model call nor
    [hydr_solve] is issued, whatever the mode; [hydr_usefile] is issued
    once, in the place they would have had: after the opening, before the
    optional save and the quality solve. *)
Theorem run_sim_use_hyd_loads_instead (file_prefix : string)
    (save_hyd use_hyd : bool) (hydfile : option string)
    (self : @Epanet22Simulator Result) (past : list Event) :
  use_hyd = true ->
  let out := issued (run_sim toolkit file_prefix save_hyd use_hyd hydfile self past) in
  ~ In ConfigureDemand (stages out) /\
  ~ In SolveHydraulics (stages out) /\
  count_stage LoadHydraulics out = 1%nat /\
  stages out =
    ((if is_None hydfile then [Open] else []) ++
     [LoadHydraulics] ++
     (if save_hyd then [SaveHydraulics] else []) ++
     [SolveQuality; WriteReport; Close])%list.
Proof.
  intros -> out. subst out.
  unfold count_stage. rewrite run_sim_stages.
  destruct hydfile, save_hyd; cbn;
    (split; [|split; [|split]]);
    solve [reflexivity
          | intros H; repeat (destruct H as [H|H]; [discriminate H|]); exact H].
Qed.

(** C7: the demand-model call is issued exactly when hydraulics are solved
    fresh and the mode upper-cases to [PDD]; when issued it is
    [dmnd_setmodel(ph, 1, self.pmin, self.pnom, 0.5)]; in every other case
    there is no such call. *)
Theorem run_sim_configures_demand_on_fresh_pdd (file_prefix : string)
    (save_hyd use_hyd : bool) (hydfile : option string)
    (self : @Epanet22Simulator Result) (past : list Event) :
  let out := issued (run_sim toolkit file_prefix save_hyd use_hyd hydfile self past) in
  (In ConfigureDemand (stages out) <->
     use_hyd = false /\ Py.upper (mode self) = "PDD") /\
  calls_of_stage ConfigureDemand out =
    (if (negb use_hyd && (Py.upper (mode self) =? "PDD")%string)%bool
     then [dmnd_setmodel (run_handle toolkit file_prefix self past) 1
             (pmin self) (pnom self) 0.5%float]
     else []).
Proof.
  intros out. subst out. split; [|apply run_sim_configure_calls].
  rewrite run_sim_stages.
  destruct (String.eqb_spec (Py.upper (mode self)) "PDD") as [E|E];
    destruct hydfile, use_hyd, save_hyd; cbn; split;
    solve [ intros H; repeat (destruct H as [H|H]; [discriminate H|]);
            contradiction
          | intros [H1 H2]; first [discriminate H1 | contradiction]
          | intros _; split; [reflexivity | exact E]
          | intros _; tauto ].
Qed.

(** C8: when [save_hyd] is set, [hydr_savefile] is issued once, right
    after the hydraulics stage (the load or the solve) whatever code that
    stage returned, on the same hydraulics file; with [use_hyd] also set
    the run goes [LoadHydraulics], [SaveHydraulics] and on to [Close]. *)
Theorem run_sim_save_hyd_follows_hydraulics (file_prefix : string)
    (save_hyd use_hyd : bool) (hydfile : option string)
    (self : @Epanet22Simulator Result) (past : list Event) :
  save_hyd = true ->
  let out := issued (run_sim toolkit file_prefix save_hyd use_hyd hydfile self past) in
  count_stage SaveHydraulics out = 1%nat /\
  (exists before : list Stage,
     stages out =
       (before ++
        [if use_hyd then LoadHydraulics else SolveHydraulics;
         SaveHydraulics; SolveQuality; WriteReport; Close])%list) /\
  calls_of_stage SaveHydraulics out =
    [hydr_savefile (run_handle toolkit file_prefix self past)
       (Py.kwarg (file_prefix ++ ".hyd") hydfile)] /\
  calls_of_stage LoadHydraulics out =
    (if use_hyd
     then [hydr_usefile (run_handle toolkit file_prefix self past)
             (Py.kwarg (file_prefix ++ ".hyd") hydfile)]
     else []).
Proof.
  intros -> out. subst out.
  destruct (run_sim_hydfile_calls file_prefix true use_hyd hydfile self past)
    as [Hload Hsave].
  split; [|split; [|split; assumption]].
  - unfold count_stage. rewrite run_sim_stages.
    destruct hydfile, use_hyd, (Py.upper (mode self) =? "PDD")%string;
      reflexivity.
  - rewrite run_sim_stages. unfold stage_chain.
    destruct use_hyd.
    + exists (if is_None hydfile then [Open] else []).
      destruct (is_None hydfile); reflexivity.
    + exists ((if is_None hydfile then [Open] else []) ++
              (if (Py.upper (mode self) =? "PDD")%string
               then [ConfigureDemand] else []))%list.
      rewrite <- !app_assoc. reflexivity.
Qed.

(** C9: every run issues [proj_close] once, whatever the toolkit answered
    before; [reader.read] is called once, as the last thing and after the
    close, on the prefix with [.bin], and its result is the value of
    [run_sim]. *)
Theorem run_sim_closes_then_reads (file_prefix : string)
    (save_hyd use_hyd : bool) (hydfile : option string)
    (self : @Epanet22Simulator Result) (past : list Event) :
  let run := run_sim toolkit file_prefix save_hyd use_hyd hydfile self past in
  let ph := run_handle toolkit file_prefix self past in
  let outfile := file_prefix ++ ".bin" in
  count_stage Close (issued run) = 1%nat /\
  reads (issued run) = [outfile] /\
  exists (body : list Event) (code : Z),
    issued run =
      (body ++ [Toolkit (proj_close ph) code; LoggerDebug "Completed run";
                ReaderRead outfile])%list /\
    returned run =
      read (reader self)
        (past ++ body ++ [Toolkit (proj_close ph) code;
                          LoggerDebug "Completed run"])%list
        outfile.
Proof.
  intros run ph outfile.
  destruct (run_sim_ending file_prefix save_hyd use_hyd hydfile self past)
    as (body & code & Hout & Hclose & Hreads & _ & Hret).
  fold run ph outfile in Hout, Hret.
  split; [|split].
  - rewrite Hout, count_stage_app, Hclose. reflexivity.
  - rewrite Hout, reads_app, Hreads. reflexivity.
  - exists body, code. split; assumption.
Qed.

(** C10: on the fresh-solve path the mode is compared after upper-casing:
    each of the eight spellings of [pdd] gets the demand-model call, once;
    any other string gets none and the run goes through the demand-driven
    chain to its end like any other run. *)
Theorem run_sim_mode_test_ignores_case (file_prefix : string)
    (save_hyd : bool) (hydfile : option string)
    (self : @Epanet22Simulator Result) (past : list Event) :
  let out := issued (run_sim toolkit file_prefix save_hyd false hydfile self past) in
  let pdd := existsb (String.eqb (mode self)) pdd_spellings in
  (pdd = true <-> Py.upper (mode self) = "PDD") /\
  count_stage ConfigureDemand out = (if pdd then 1 else 0)%nat /\
  stages out = stage_chain (is_None hydfile) false pdd save_hyd.
Proof.
  intros out pdd.
  assert (Hpdd : pdd = (Py.upper (mode self) =? "PDD")%string).
  { subst pdd.
    destruct (String.eqb_spec (Py.upper (mode self)) "PDD") as [E|E].
    - apply existsb_exists. exists (mode self).
      split; [apply upper_PDD_spellings, E | apply String.eqb_refl].
    - destruct (existsb _ _) eqn:Ex; [|reflexivity].
      apply existsb_exists in Ex. destruct Ex as (m & Hin & Hm).
      apply String.eqb_eq in Hm. subst m.
      apply upper_PDD_spellings in Hin. contradiction. }
  subst out. unfold count_stage. rewrite run_sim_stages, Hpdd.
  split; [apply String.eqb_eq|].
  destruct hydfile, save_hyd, (Py.upper (mode self) =? "PDD")%string;
    split; reflexivity.
Qed.

(** ** More of what a run does *)

(** The toolkit calls of a run, arguments included. *)
Lemma run_sim_calls (file_prefix : string) (save_hyd use_hyd : bool)
    (hydfile : option string) (self : @Epanet22Simulator Result)
    (past : list Event) :
  map fst (toolkit_calls
             (issued (run_sim toolkit file_prefix save_hyd use_hyd hydfile self past))) =
  call_chain (run_handle toolkit file_prefix self past) file_prefix
    save_hyd use_hyd hydfile (mode self) (pmin self) (pnom self).
Proof.
  apply (post_run (run_sim toolkit file_prefix save_hyd use_hyd hydfile) self past
           (fun _ _ out => map fst (toolkit_calls out) = call_chain _ _ _ _ _ _ _ _)).
  unfold run_handle, call_chain.
  run_cases hydfile use_hyd save_hyd;
    cbn [is_None Py.kwarg app]; rewrite ?Heqb; reflexivity.
Qed.

(** How a run starts, and what it writes, creates and logs. *)
Lemma run_sim_start (file_prefix : string) (save_hyd use_hyd : bool)
    (hydfile : option string) (self : @Epanet22Simulator Result)
    (past : list Event) :
  let out := issued (run_sim toolkit file_prefix save_hyd use_hyd hydfile self past) in
  (exists rest : list Event,
     out = WriteInpfile (file_prefix ++ ".inp") (en2_units (_wn self))
           :: ProjCreate (run_handle toolkit file_prefix self past) :: rest /\
     writes rest = [] /\ creates rest = []) /\
  debug_lines out =
    ([if use_hyd then "Loaded hydraulics" else "Solved hydraulics"] ++
     (if save_hyd then ["Saved hydraulics"] else []) ++
     ["Solved quality"; "Ran quality"; "Completed run"])%list.
Proof.
  apply (post_run (run_sim toolkit file_prefix save_hyd use_hyd hydfile) self past
           (fun _ _ out =>
              (exists rest : list Event,
                 out = WriteInpfile _ _ :: ProjCreate _ :: rest /\
                 writes rest = [] /\ creates rest = []) /\
              debug_lines out = _)).
  unfold run_handle.
  run_cases hydfile use_hyd save_hyd;
    (split; [eexists; split; [reflexivity | split; reflexivity] | reflexivity]).
Qed.

(** The file names of a run, in the order they are used. *)
Lemma run_sim_files (file_prefix : string) (save_hyd use_hyd : bool)
    (hydfile : option string) (self : @Epanet22Simulator Result)
    (past : list Event) :
  files (issued (run_sim toolkit file_prefix save_hyd use_hyd hydfile self past)) =
  let path := Py.kwarg (file_prefix ++ ".hyd") hydfile in
  let inpfile := file_prefix ++ ".inp" in
  let rptfile := file_prefix ++ ".rpt" in
  let outfile := file_prefix ++ ".bin" in
  ([inpfile] ++
   (if is_None hydfile then [inpfile; rptfile; outfile] else []) ++
   (if use_hyd then [path] else []) ++
   (if save_hyd then [path] else []) ++
   [outfile])%list.
Proof.
  apply (post_run (run_sim toolkit file_prefix save_hyd use_hyd hydfile) self past
           (fun _ _ out => files out = _)).
  run_cases hydfile use_hyd save_hyd; reflexivity.
Qed.

(** The object after a run is the object before it with a new [errcode]. *)
Lemma run_sim_frame (file_prefix : string) (save_hyd use_hyd : bool)
    (hydfile : option string) (self : @Epanet22Simulator Result)
    (past : list Event) :
  let self' := object (run_sim toolkit file_prefix save_hyd use_hyd hydfile self past) in
  self' = set_errcode (errcode self') self.
Proof.
  apply (post_run (run_sim toolkit file_prefix save_hyd use_hyd hydfile) self past
           (fun _ self' _ => self' = set_errcode (errcode self') self)).
  run_cases hydfile use_hyd save_hyd; reflexivity.
Qed.

(** *** Rules for [respects] *)

Lemma respects_ret {A : Type} (a : A) : respects (@ret Result A a).
Proof. intros s1 s2 past H. repeat split; apply H. Qed.

Lemma respects_bind {A B : Type} (m : @M Result A) (k : A -> M B) :
  respects m -> (forall a, respects (k a)) -> respects (bind m k).
Proof.
  intros Hm Hk s1 s2 past H.
  specialize (Hm s1 s2 past H).
  unfold bind, returned, object, issued in *.
  destruct (m s1 past) as [[a1 t1] o1], (m s2 past) as [[a2 t2] o2].
  cbn in Hm. destruct Hm as (-> & -> & Ht).
  specialize (Hk a2 t1 t2 (past ++ o2)%list Ht).
  destruct (k a2 t1 (past ++ o2)%list) as [[b1 u1] p1],
           (k a2 t2 (past ++ o2)%list) as [[b2 u2] p2].
  cbn in Hk |- *. destruct Hk as (-> & -> & Hu).
  repeat split; apply Hu.
Qed.

Lemma respects_attr {A : Type} (field : @Epanet22Simulator Result -> A) :
  (forall s1 s2, agree s1 s2 -> field s1 = field s2) ->
  respects (attr field).
Proof.
  intros Hf s1 s2 past H.
  split; [exact (Hf s1 s2 H) | split; [reflexivity | exact H]].
Qed.

Lemma respects_assign_errcode (code : Z) :
  respects (@assign_errcode Result code).
Proof. intros s1 s2 past H. repeat split; apply H. Qed.

Lemma respects_emit (e : Event) : respects (@emit Result e).
Proof. intros s1 s2 past H. repeat split; apply H. Qed.

Lemma respects_proj_create : respects (@toolkit_proj_create Result toolkit).
Proof. intros s1 s2 past H. repeat split; apply H. Qed.

Lemma respects_toolkit_call (c : ToolkitCall) :
  respects (@toolkit_call Result toolkit c).
Proof. intros s1 s2 past H. repeat split; apply H. Qed.

Lemma respects_reader_read (outfile : string) :
  respects (@reader_read Result outfile).
Proof.
  intros s1 s2 past H.
  unfold reader_read, returned, object, issued; cbn.
  destruct H as (H1 & H2 & H3 & H4 & H5).
  rewrite H5. repeat split; assumption.
Qed.

Ltac respect :=
  cbv beta zeta;
  lazymatch goal with
  | |- respects (bind _ _) => apply respects_bind; [|intro]
  | |- respects (ret _) => apply respects_ret
  | |- respects (attr _) =>
      apply respects_attr;
      let H := fresh in
      intros ? ? H; destruct H as (? & ? & ? & ? & ?); assumption
  | |- respects (assign_errcode _) => apply respects_assign_errcode
  | |- respects (write_inpfile _ _) => apply respects_emit
  | |- respects (logger_debug _) => apply respects_emit
  | |- respects (toolkit_proj_create _) => apply respects_proj_create
  | |- respects (toolkit_call _ _) => apply respects_toolkit_call
  | |- respects (reader_read _) => apply respects_reader_read
  | |- respects (if ?b then _ else _) => destruct b
  | |- respects (match ?o with Some _ => _ | None => _ end) => destruct o
  end.

(** [run_sim] reads the network, the mode, the two pressures and the
    reader, and nothing else of the object. *)
Lemma run_sim_respects (file_prefix : string) (save_hyd use_hyd : bool)
    (hydfile : option string) :
  respects (@run_sim Result toolkit file_prefix save_hyd use_hyd hydfile).
Proof. unfold run_sim. repeat respect. Qed.

(** The events of two computations in a row. *)
Lemma issued_bind {A B : Type} (m : @M Result A) (k : A -> M B)
    (self : Epanet22Simulator) (past : list Event) :
  issued (bind m k self past) =
  (issued (m self past) ++
   issued (k (returned (m self past)) (object (m self past))
             (past ++ issued (m self past))))%list.
Proof.
  unfold bind, returned, object, issued.
  destruct (m self past) as [[a self1] out1]; cbn.
  destruct (k a self1 (past ++ out1)%list) as [[b self2] out2]. reflexivity.
Qed.

End Properties.

(** ** Runs on concrete collaborators *)

(** A fresh pressure-dependent solve that saves its hydraulics. *)
Example run_fresh_pdd_saving :
  stage_outcomes
    (issued (run_sim toolkit_ok "temp" true false None default_simulator [])) =
  [(Open, 0); (ConfigureDemand, 0); (SolveHydraulics, 0); (SaveHydraulics, 0);
   (SolveQuality, 0); (WriteReport, 0); (Close, 0)].
Proof. reflexivity. Qed.

(** The whole trace of the default run. *)
Example run_default_trace :
  run_sim_kwargs toolkit_ok None None None None default_simulator [] =
  ("temp.bin",
   default_simulator,
   [WriteInpfile "temp.inp" "GPM";
    ProjCreate (ProjectHandle 1);
    Toolkit (proj_open (ProjectHandle 1) "temp.inp" "temp.rpt" "temp.bin") 0;
    Toolkit (dmnd_setmodel (ProjectHandle 1) 1 17.75 21.96 0.5) 0;
    Toolkit (hydr_solve (ProjectHandle 1)) 0;
    LoggerDebug "Solved hydraulics";
    Toolkit (qual_solve (ProjectHandle 1)) 0;
    LoggerDebug "Solved quality";
    Toolkit (rprt_writeresults (ProjectHandle 1)) 0;
    LoggerDebug "Ran quality";
    Toolkit (proj_close (ProjectHandle 1)) 0;
    LoggerDebug "Completed run";
    ReaderRead "temp.bin"]).
Proof. reflexivity. Qed.

(** A lower-case mode on the fresh path, and a mode that is not [PDD]. *)
Example run_lowercase_pdd :
  stages (issued (run_sim toolkit_ok "net" false false None
                    (__init__ example_BinFile example_wn (Some "pdd")
                       None None None None) [])) =
  [Open; ConfigureDemand; SolveHydraulics; SolveQuality; WriteReport; Close].
Proof. reflexivity. Qed.

Example run_demand_driven :
  stages (issued (run_sim toolkit_ok "net" false false None
                    (__init__ example_BinFile example_wn (Some "DD")
                       None None None None) [])) =
  [Open; SolveHydraulics; SolveQuality; WriteReport; Close].
Proof. reflexivity. Qed.

(** C1: [run_sim(hydfile="saved.hyd")] on the default simulator, a fresh
    solve.  The chain specified for it starts with [Open]; the run issues
    the rest of the chain and never opens the project, because
    [proj_open] sits inside the [if hydfile is None] block. *)
Theorem run_sim_given_hydfile_skips_open :
  let run := run_sim toolkit_ok "temp" false false (Some "saved.hyd")
               default_simulator [] in
  fresh_solve_chain true false =
    [Open; ConfigureDemand; SolveHydraulics; SolveQuality; WriteReport; Close] /\
  stages (issued run) =
    [ConfigureDemand; SolveHydraulics; SolveQuality; WriteReport; Close] /\
  calls_of_stage Open (issued run) = [] /\
  stages (issued run) <> fresh_solve_chain true false.
Proof.
  cbv zeta. rewrite run_sim_stages, run_sim_given_hydfile_no_open.
  repeat split. discriminate.
Qed.

(** C2: a default run against a toolkit whose hydraulic solver warns.
    Six stages return a status code; [errcodelist] is as empty after the
    run as before, and [errcode] holds only the last code. *)
Theorem run_sim_keeps_no_history :
  let run := run_sim_kwargs toolkit_warns None None None None
               default_simulator [] in
  stage_outcomes (issued run) =
    [(Open, 0); (ConfigureDemand, 0); (SolveHydraulics, 6);
     (SolveQuality, 0); (WriteReport, 0); (Close, 0)] /\
  errcodelist (object run) = [] /\
  errcode (object run) = 0.
Proof. repeat split. Qed.

(** C3 (counterexample): the input file is rejected with code 200 and
    every later stage answers 0; [errcode] ends at 0, not at the highest
    code of the run. *)
Lemma errcode_forgets_rejected_input :
  let run := run_sim_kwargs toolkit_bad_input None None None None
               default_simulator [] in
  max_code (status_codes (issued run)) = 200 /\
  errcode (object run) = 0 /\
  errcode (object run) <> max_code (status_codes (issued run)).
Proof. repeat split. discriminate. Qed.

(** C4: a run with a warning code (6 from [hydr_solve]) and a run with a
    fatal code (200 from [proj_open]).  Neither flag moves: [Warnflag] and
    [Errflag] are still [False] after both. *)
Theorem run_sim_leaves_flags_unset :
  let warned := run_sim_kwargs toolkit_warns None None None None
                  default_simulator [] in
  let failed := run_sim_kwargs toolkit_bad_input None None None None
                  default_simulator [] in
  existsb is_warning (status_codes (issued warned)) = true /\
  Warnflag (object warned) = false /\
  existsb is_fatal (status_codes (issued failed)) = true /\
  Errflag (object failed) = false.
Proof. repeat split. Qed.

(** C5 (counterexample): the simulator built without a mode is not in
    demand-driven mode, and its default run does configure the demand
    model. *)
Lemma default_mode_is_not_demand_driven :
  let self := default_simulator in
  let run := run_sim_kwargs toolkit_ok None None None None self [] in
  ~ (Py.upper (mode self) <> "PDD" /\
     pmin self = 17.75%float /\
     pnom self = 21.96%float /\
     In (WriteInpfile "temp.inp" "GPM") (issued run) /\
     ~ In ConfigureDemand (stages (issued run))).
Proof.
  cbv zeta. intros (Hmode & _). apply Hmode. reflexivity.
Qed.

(** C5 (as amended): the defaults are mode ["PDD"], minimum pressure 17.75,
    nominal pressure 21.96 and file prefix ["temp"]; a simulator built
    without a mode, run with the defaults, issues the demand-model call
    once, with these pressures and the exponent 0.5, between the opening
    and the hydraulic solve. *)
Theorem default_run_configures_demand {Result ResultTypes : Type}
    (BinFile : option ResultTypes -> @Reader Result) (toolkit : ToolkitModule)
    (wn : WaterNetworkModel) (reader : option (@Reader Result))
    (result_types : option ResultTypes) (past : list Event) :
  let self := __init__ BinFile wn None None None reader result_types in
  let run := run_sim_kwargs toolkit None None None None self past in
  mode self = "PDD" /\
  pmin self = 17.75%float /\
  pnom self = 21.96%float /\
  run = run_sim toolkit "temp" false false None self past /\
  calls_of_stage ConfigureDemand (issued run) =
    [dmnd_setmodel (run_handle toolkit "temp" self past) 1
       17.75%float 21.96%float 0.5%float] /\
  stages (issued run) =
    [Open; ConfigureDemand; SolveHydraulics; SolveQuality; WriteReport; Close].
Proof.
  intros self run.
  repeat (split; [reflexivity|]).
  subst run. unfold run_sim_kwargs, Py.kwarg.
  rewrite run_sim_configure_calls, run_sim_stages.
  split; reflexivity.
Qed.

(** C6 (witness): loading ["temp.hyd"] and saving it again. *)
Lemma run_sim_use_hyd_loads_instead_witness :
  true = true /\
  stages (issued (run_sim toolkit_ok "temp" true true (Some "temp.hyd")
                    default_simulator [])) =
    [LoadHydraulics; SaveHydraulics; SolveQuality; WriteReport; Close].
Proof.
  split; [reflexivity|].
  exact (proj2 (proj2 (proj2
           (run_sim_use_hyd_loads_instead toolkit_ok "temp" true true
              (Some "temp.hyd") default_simulator [] eq_refl)))).
Defined.

(** C8 (witness): a fresh solve that saves to the derived file, after a
    hydraulic solve that answered with a warning. *)
Lemma run_sim_save_hyd_follows_hydraulics_witness :
  true = true /\
  count_stage SaveHydraulics
    (issued (run_sim toolkit_warns "temp" true false None
               default_simulator [])) = 1%nat /\
  calls_of_stage SaveHydraulics
    (issued (run_sim toolkit_warns "temp" true false None
               default_simulator [])) =
    [hydr_savefile (ProjectHandle 1) "temp.hyd"].
Proof.
  split; [reflexivity|].
  pose proof (run_sim_save_hyd_follows_hydraulics toolkit_warns "temp" true
                false None default_simulator [] eq_refl) as H.
  split; [exact (proj1 H) | exact (proj1 (proj2 (proj2 H)))].
Defined.

(** ** Further properties of [run_sim] *)

Lemma call_chain_handle (ph : Handle) (file_prefix : string)
    (save_hyd use_hyd : bool) (hydfile : option string)
    (mode : string) (pmin pnom : float) :
  Forall (fun c => handle_of c = ph)
    (call_chain ph file_prefix save_hyd use_hyd hydfile mode pmin pnom).
Proof.
  unfold call_chain.
  destruct hydfile, use_hyd, save_hyd, (Py.upper mode =? "PDD")%string;
    cbn; repeat constructor.
Qed.

Lemma hydfile_calls_app (tr1 tr2 : list Event) :
  hydfile_calls (tr1 ++ tr2) = (hydfile_calls tr1 ++ hydfile_calls tr2)%list.
Proof.
  unfold hydfile_calls.
  rewrite toolkit_calls_app, map_app. apply filter_app.
Qed.

Lemma append_same_prefix (p a b : string) : p ++ a = p ++ b -> a = b.
Proof.
  induction p as [|c p IH]; cbn; intros H; [exact H|].
  injection H as H. exact (IH H).
Qed.

(** X1: a run writes the input file once, as the first thing it does,
    creates one project right after, and makes every toolkit call on the
    handle of that project. *)
Theorem run_sim_one_project_handle {Result : Type} (toolkit : ToolkitModule)
    (file_prefix : string) (save_hyd use_hyd : bool) (hydfile : option string)
    (self : @Epanet22Simulator Result) (past : list Event) :
  let out := issued (run_sim toolkit file_prefix save_hyd use_hyd hydfile self past) in
  let ph := run_handle toolkit file_prefix self past in
  writes out = [(file_prefix ++ ".inp", en2_units (_wn self))] /\
  creates out = [ph] /\
  Forall (fun c => handle_of c = ph) (map fst (toolkit_calls out)) /\
  exists rest : list Event,
    out = WriteInpfile (file_prefix ++ ".inp") (en2_units (_wn self))
          :: ProjCreate ph :: rest.
Proof.
  intros out ph.
  pose proof (run_sim_start toolkit file_prefix save_hyd use_hyd hydfile self past)
    as H.
  cbv zeta in H. fold out ph in H. destruct H as [(rest & Hout & Hw & Hc) _].
  split; [|split; [|split]].
  - rewrite Hout. cbn [writes]. rewrite Hw. reflexivity.
  - rewrite Hout. cbn [creates]. rewrite Hc. reflexivity.
  - subst out ph. rewrite run_sim_calls. apply call_chain_handle.
  - exists rest. exact Hout.
Qed.

(** X2: the status codes a toolkit answers with never change what is
    asked of it: two toolkits that hand out the same project handle get
    the same calls with the same arguments, in the same order. *)
Theorem run_sim_calls_ignore_status {Result : Type} (tk1 tk2 : ToolkitModule)
    (file_prefix : string) (save_hyd use_hyd : bool) (hydfile : option string)
    (self : @Epanet22Simulator Result) (past : list Event) :
  run_handle tk1 file_prefix self past = run_handle tk2 file_prefix self past ->
  map fst (toolkit_calls
             (issued (run_sim tk1 file_prefix save_hyd use_hyd hydfile self past))) =
  map fst (toolkit_calls
             (issued (run_sim tk2 file_prefix save_hyd use_hyd hydfile self past))).
Proof.
  intros Hph. rewrite !run_sim_calls, Hph. reflexivity.
Qed.

(** X3: no toolkit, whatever it answers, makes the run stop early or take
    another path: the stages, the debug lines and the file names used are
    the same against any two toolkits. *)
Theorem run_sim_never_aborts {Result : Type} (tk1 tk2 : ToolkitModule)
    (file_prefix : string) (save_hyd use_hyd : bool) (hydfile : option string)
    (self : @Epanet22Simulator Result) (past : list Event) :
  let out1 := issued (run_sim tk1 file_prefix save_hyd use_hyd hydfile self past) in
  let out2 := issued (run_sim tk2 file_prefix save_hyd use_hyd hydfile self past) in
  stages out1 = stages out2 /\
  debug_lines out1 = debug_lines out2 /\
  files out1 = files out2.
Proof.
  intros out1 out2. subst out1 out2.
  pose proof (run_sim_start tk1 file_prefix save_hyd use_hyd hydfile self past) as H1.
  pose proof (run_sim_start tk2 file_prefix save_hyd use_hyd hydfile self past) as H2.
  cbv zeta in H1, H2.
  destruct H1 as [_ L1], H2 as [_ L2].
  rewrite !run_sim_stages, !run_sim_files, L1, L2.
  repeat split.
Qed.

(** X4: no stage is issued twice in a run: there is no retry. *)
Theorem run_sim_no_stage_twice {Result : Type} (toolkit : ToolkitModule)
    (file_prefix : string) (save_hyd use_hyd : bool) (hydfile : option string)
    (self : @Epanet22Simulator Result) (past : list Event) :
  NoDup (stages (issued (run_sim toolkit file_prefix save_hyd use_hyd hydfile
                           self past))).
Proof.
  rewrite run_sim_stages. unfold stage_chain.
  destruct (is_None hydfile), use_hyd, save_hyd,
           (Py.upper (mode self) =? "PDD")%string; cbn;
    repeat (constructor;
            [cbn; intros H;
             repeat (destruct H as [H|H]; [discriminate H|]); exact H|]);
    constructor.
Qed.

(** X5: with no hydraulics file given, the project is opened on the input
    file the run has just written, with the report and the output file of
    the same prefix, and the file the reader gets is that output file. *)
Theorem run_sim_opens_what_it_wrote {Result : Type} (toolkit : ToolkitModule)
    (file_prefix : string) (save_hyd use_hyd : bool)
    (self : @Epanet22Simulator Result) (past : list Event) :
  let out := issued (run_sim toolkit file_prefix save_hyd use_hyd None self past) in
  let ph := run_handle toolkit file_prefix self past in
  map fst (writes out) = [file_prefix ++ ".inp"] /\
  calls_of_stage Open out =
    [proj_open ph (file_prefix ++ ".inp") (file_prefix ++ ".rpt")
       (file_prefix ++ ".bin")] /\
  reads out = [file_prefix ++ ".bin"].
Proof.
  intros out ph.
  pose proof (run_sim_start toolkit file_prefix save_hyd use_hyd None self past)
    as Hs.
  cbv zeta in Hs. fold out ph in Hs. destruct Hs as [(rest & Hout & Hw & _) _].
  destruct (run_sim_ending toolkit file_prefix save_hyd use_hyd None self past)
    as (body & code & Hend & _ & Hreads & _).
  fold out in Hend.
  split; [|split].
  - rewrite Hout. cbn [writes map fst]. rewrite Hw. reflexivity.
  - subst out ph. unfold calls_of_stage. rewrite run_sim_calls.
    unfold call_chain.
    destruct use_hyd, save_hyd, (Py.upper (mode self) =? "PDD")%string;
      reflexivity.
  - rewrite Hend, reads_app, Hreads. reflexivity.
Qed.

(** X6: every file a run names is the prefix with one of the four
    extensions [.inp], [.rpt], [.bin], [.hyd], or the hydraulics file the
    caller gave. *)
Theorem run_sim_files_from_prefix {Result : Type} (toolkit : ToolkitModule)
    (file_prefix : string) (save_hyd use_hyd : bool) (hydfile : option string)
    (self : @Epanet22Simulator Result) (past : list Event) :
  incl (files (issued (run_sim toolkit file_prefix save_hyd use_hyd hydfile
                         self past)))
       (map (append file_prefix) [".inp"; ".rpt"; ".bin"; ".hyd"] ++
        match hydfile with
        | Some given => [given]
        | None => []
        end).
Proof.
  rewrite run_sim_files.
  destruct hydfile, use_hyd, save_hyd; intros f Hf;
    cbn [is_None Py.kwarg app map In] in Hf |- *; tauto.
Qed.

(** X7: with the two flags left at their defaults, a run neither loads nor
    saves hydraulics, and when no hydraulics file is given either, the
    [.hyd] file of the prefix is not among the files it names. *)
Theorem run_sim_default_flags_leave_hydfile {Result : Type}
    (toolkit : ToolkitModule) (file_prefix hydfile : option string)
    (self : @Epanet22Simulator Result) (past : list Event) :
  hydfile_calls
    (issued (run_sim_kwargs toolkit file_prefix None None hydfile self past)) = [] /\
  ~ In (Py.kwarg "temp" file_prefix ++ ".hyd")
       (files (issued (run_sim_kwargs toolkit file_prefix None None None
                         self past))).
Proof.
  unfold run_sim_kwargs, hydfile_calls.
  rewrite run_sim_calls, run_sim_files. unfold call_chain.
  cbn [Py.kwarg].
  split.
  - destruct hydfile, (Py.upper (mode self) =? "PDD")%string; reflexivity.
  - cbn [is_None app In].
    intros H.
    repeat (destruct H as [H|H];
            [apply append_same_prefix in H; discriminate H|]).
    exact H.
Qed.

(** X8: a run changes nothing of the simulator but [errcode]: the
    network, the mode, the pressures, the reader, the preparation time,
    the code list and the two flags are those it started with. *)
Theorem run_sim_changes_errcode_only {Result : Type} (toolkit : ToolkitModule)
    (file_prefix : string) (save_hyd use_hyd : bool) (hydfile : option string)
    (self : @Epanet22Simulator Result) (past : list Event) :
  let self' := object (run_sim toolkit file_prefix save_hyd use_hyd hydfile
                         self past) in
  self' = set_errcode (errcode self') self /\
  agree self' self /\
  prep_time_before_main_loop self' = prep_time_before_main_loop self.
Proof.
  intros self'.
  pose proof (run_sim_frame toolkit file_prefix save_hyd use_hyd hydfile self past)
    as H.
  cbv zeta in H. fold self' in H.
  split; [exact H|].
  rewrite H. repeat split.
Qed.

(** X9: what a run does and returns does not depend on the status
    attributes left by earlier runs: two simulators with the same network,
    mode, pressures and reader issue the same events and return the same
    value, whatever their [errcode], code list and flags. *)
Theorem run_sim_ignores_earlier_status {Result : Type} (toolkit : ToolkitModule)
    (file_prefix : string) (save_hyd use_hyd : bool) (hydfile : option string)
    (s1 s2 : @Epanet22Simulator Result) (past : list Event) :
  agree s1 s2 ->
  issued (run_sim toolkit file_prefix save_hyd use_hyd hydfile s1 past) =
  issued (run_sim toolkit file_prefix save_hyd use_hyd hydfile s2 past) /\
  returned (run_sim toolkit file_prefix save_hyd use_hyd hydfile s1 past) =
  returned (run_sim toolkit file_prefix save_hyd use_hyd hydfile s2 past) /\
  errcode (object (run_sim toolkit file_prefix save_hyd use_hyd hydfile s1 past)) =
  errcode (object (run_sim toolkit file_prefix save_hyd use_hyd hydfile s2 past)).
Proof.
  intros H.
  destruct (run_sim_respects toolkit file_prefix save_hyd use_hyd hydfile
              s1 s2 past H) as (Hret & Hout & _).
  split; [exact Hout | split; [exact Hret|]].
  destruct (run_sim_ending toolkit file_prefix save_hyd use_hyd hydfile s1 past)
    as (b1 & c1 & E1 & _ & _ & C1 & _).
  destruct (run_sim_ending toolkit file_prefix save_hyd use_hyd hydfile s2 past)
    as (b2 & c2 & E2 & _ & _ & C2 & _).
  rewrite C1, C2.
  rewrite E1, E2 in Hout.
  apply (f_equal (@rev Event)) in Hout.
  rewrite !rev_app_distr in Hout. cbn in Hout.
  congruence.
Qed.

(** X10: a run that saves its hydraulics followed by a run that loads
    them, with the same prefix and hydraulics file: the second run loads
    the very file the first one saved, and no other hydraulics file is
    touched on the way. *)
Theorem save_then_load_same_file {Result : Type} (toolkit : ToolkitModule)
    (file_prefix : string) (hydfile : option string)
    (self : @Epanet22Simulator Result) (past : list Event) :
  let first := run_sim toolkit file_prefix true false hydfile self past in
  let both := bind (run_sim toolkit file_prefix true false hydfile)
                (fun _ => run_sim toolkit file_prefix false true hydfile)
                self past in
  let path := Py.kwarg (file_prefix ++ ".hyd") hydfile in
  hydfile_calls (issued both) =
    [hydr_savefile (run_handle toolkit file_prefix self past) path;
     hydr_usefile
       (run_handle toolkit file_prefix (object first) (past ++ issued first))
       path].
Proof.
  intros first both path. subst both.
  rewrite issued_bind, hydfile_calls_app. fold first.
  unfold hydfile_calls. subst first. rewrite !run_sim_calls.
  unfold call_chain. subst path.
  destruct hydfile, (Py.upper (mode self) =? "PDD")%string; reflexivity.
Qed.

(** X11: the pressures given to the constructor are the ones the solver
    is configured with: built with a mode that upper-cases to [PDD] and
    with [pmin] and [pnom], the simulator's fresh solve calls
    [dmnd_setmodel(ph, 1, pmin, pnom, 0.5)]. *)
Theorem init_pressures_reach_toolkit {Result ResultTypes : Type}
    (BinFile : option ResultTypes -> @Reader Result) (toolkit : ToolkitModule)
    (wn : WaterNetworkModel) (m : string) (lo hi : float)
    (reader : option (@Reader Result)) (result_types : option ResultTypes)
    (file_prefix : string) (save_hyd : bool) (hydfile : option string)
    (past : list Event) :
  Py.upper m = "PDD" ->
  let self := __init__ BinFile wn (Some m) (Some lo) (Some hi) reader
                result_types in
  calls_of_stage ConfigureDemand
    (issued (run_sim toolkit file_prefix save_hyd false hydfile self past)) =
  [dmnd_setmodel (run_handle toolkit file_prefix self past) 1 lo hi 0.5%float].
Proof.
  intros Hm self. rewrite run_sim_configure_calls.
  subst self. cbn [__init__ mode pmin pnom Py.kwarg negb andb].
  rewrite (proj2 (String.eqb_eq _ _) Hm). reflexivity.
Qed.

(** X2 (witness): a toolkit that accepts everything and one that fails
    every call are asked the same. *)
Lemma run_sim_calls_ignore_status_witness :
  run_handle toolkit_ok "temp" default_simulator [] =
  run_handle toolkit_failing "temp" default_simulator [] /\
  map fst (toolkit_calls
             (issued (run_sim toolkit_ok "temp" true false None
                        default_simulator []))) =
  map fst (toolkit_calls
             (issued (run_sim toolkit_failing "temp" true false None
                        default_simulator []))).
Proof.
  split; [reflexivity|].
  exact (run_sim_calls_ignore_status toolkit_ok toolkit_failing "temp" true
           false None default_simulator [] eq_refl).
Defined.

(** X9 (witness): a fresh simulator and one left with code 203. *)
Lemma run_sim_ignores_earlier_status_witness :
  agree default_simulator used_simulator /\
  returned (run_sim toolkit_ok "temp" false false None default_simulator []) =
  returned (run_sim toolkit_ok "temp" false false None used_simulator []).
Proof.
  assert (H : agree default_simulator used_simulator) by (repeat split).
  split; [exact H|].
  exact (proj1 (proj2 (run_sim_ignores_earlier_status toolkit_ok "temp" false
                         false None default_simulator used_simulator [] H))).
Defined.

(** X11 (witness): a lower-case mode and two pressures of the caller. *)
Lemma init_pressures_reach_toolkit_witness :
  Py.upper "pdd" = "PDD" /\
  calls_of_stage ConfigureDemand
    (issued (run_sim toolkit_ok "net" false false None
               (__init__ example_BinFile example_wn (Some "pdd")
                  (Some 10.5%float) (Some 30.25%float) None None) [])) =
  [dmnd_setmodel (ProjectHandle 1) 1 10.5%float 30.25%float 0.5%float].
Proof.
  split; [reflexivity|].
  exact (init_pressures_reach_toolkit example_BinFile toolkit_ok example_wn
           "pdd" 10.5%float 30.25%float None None "net" false None []
           eq_refl).
Defined.
